(** * euporie: cell selection commands, kernel tabs and the log queue

    A shallow embedding of
      - [euporie/commands/notebook.py]  (the cell-selection commands),
      - [euporie/core/tabs/base.py]     (the [KernelTab] class),
      - [euporie/log.py]                (the [QueueHandler] class and [LOG_QUEUE]),
    followed by the properties of the specification that concern them.

    Python objects that are mutated in place become explicit state that is
    passed through; calls on collaborators whose classes live outside these
    files (the kernel, dialogs, comm objects, log hooks) are recorded in a
    trace, oldest call first. *)

From Stdlib Require Import ZArith Lia.
From stdpp Require Import base option list strings gmap pretty.

Set Default Proof Using "Type".
Set Warnings "-register-all".

(** ** Python values and dictionaries *)

Module Py.

(** JSON-like Python values, as found in notebook metadata and in kernel
    message contents. *)
Inductive pyval : Type :=
| PyNone
| PyBool (b : bool)
| PyInt (z : Z)
| PyStr (s : string)
| PyList (l : list pyval)
| PyDict (d : list (string * pyval)).

(** A Python [dict] in insertion order.  Keys of the dictionaries modelled
    this way are never duplicated by the operations below. *)
Definition dict (K V : Type) : Type := list (K * V).

Section dict_ops.
Context {K V : Type} `{EqDecision K}.

(** [d.get(k)] *)
Fixpoint dict_get (k : K) (d : dict K V) : option V :=
  match d with
  | [] => None
  | (k', v) :: d' => if decide (k' = k) then Some v else dict_get k d'
  end.

(** [k in d] *)
Definition dict_mem (k : K) (d : dict K V) : bool :=
  match dict_get k d with Some _ => true | None => false end.

(** [d[k] = v]: an existing key keeps its position, a new one goes last. *)
Fixpoint dict_set (k : K) (v : V) (d : dict K V) : dict K V :=
  match d with
  | [] => [(k, v)]
  | (k', v') :: d' =>
      if decide (k' = k) then (k, v) :: d' else (k', v') :: dict_set k v d'
  end.

(** [del d[k]] for a key that is present; no change otherwise. *)
Fixpoint dict_del (k : K) (d : dict K V) : dict K V :=
  match d with
  | [] => []
  | (k', v') :: d' =>
      if decide (k' = k) then dict_del k d' else (k', v') :: dict_del k d'
  end.

(** [list(d)] and [d.values()] *)
Definition dict_keys (d : dict K V) : list K := d.*1.
Definition dict_values (d : dict K V) : list V := d.*2.

End dict_ops.

(** [repr] of lists and dictionaries, which the embedding leaves open. *)
Class PyRepr := py_repr : pyval → string.

(** A stand-in for [repr], for runs in which no list or dictionary is ever
    turned into a string. *)
Definition repr_unused : PyRepr := λ _, "<object>".

(** [str(v)] *)
Definition py_str `{PyRepr} (v : pyval) : string :=
  match v with
  | PyNone => "None"
  | PyBool true => "True"
  | PyBool false => "False"
  | PyInt z => pretty z
  | PyStr s => s
  | PyList _ | PyDict _ => py_repr v
  end.

(** Exceptions raised by the modelled code. *)
Inductive exn : Type :=
| KeyError (key : string)
| IndexError
| AttributeError
| TypeError.

(** The value of an expression that may raise. *)
Inductive result (A : Type) : Type :=
| Ok (a : A)
| Err (e : exn).
Arguments Ok {A} a.
Arguments Err {A} e.

(** The result of running a method on a state of type [S]: it returns, or
    raises, and in both cases leaves a state behind. *)
Inductive outcome (S : Type) : Type :=
| Returned (s : S)
| Raised (e : exn) (s : S).
Arguments Returned {S} s.
Arguments Raised {S} e s.

Definition final {S : Type} (o : outcome S) : S :=
  match o with Returned s | Raised _ s => s end.

Definition raised {S : Type} (o : outcome S) : option exn :=
  match o with Returned _ => None | Raised e _ => Some e end.

End Py.

(** ** Cell-selection commands ([euporie/commands/notebook.py]) *)

Module Selection.

Local Open Scope Z_scope.

(** Python's [slice(start, stop, step)]; [slice(a, b)] has step [None]. *)
Record slice : Type := Slice { start : Z; stop : Z; step : option Z }.

Section commands.
Context {Cell : Type}.

(** The page of a notebook: its child cells and the selected slice. *)
Record Page : Type := mkPage {
  children : list Cell;
  _selected_slice : slice
}.

Record Notebook : Type := mkNotebook { page : Page }.

(** The application: [get_app().notebook] is [None] when no notebook is the
    active tab. *)
Record App : Type := mkApp { notebook : option Notebook }.

(** The [selected_slice] property of the page, read side. *)
Definition selected_slice (p : Page) : slice := _selected_slice p.

(** Modelled from the spec: the setter of the page's [selected_slice]
    property (the page class is outside the given sources).  The selection
    state machine accepts the computed range as it is; clamping is a
    separate step applied when the range is resolved for rendering. *)
Definition set_selected_slice (p : Page) (s : slice) : Page :=
  {| children := children p; _selected_slice := s |}.

(** Modelled from the spec: [_set_selected_slice(slice, force, scroll)] of the
    page; forcing and scrolling concern the render layer only. *)
Definition _set_selected_slice (p : Page) (s : slice) (force scroll : bool) : Page :=
  set_selected_slice p s.

(** [nb = get_app().notebook; if nb is not None: nb.page... = ...] *)
Definition with_notebook (f : Page → Page) (app : App) : App :=
  match notebook app with
  | None => app
  | Some nb => {| notebook := Some {| page := f (page nb) |} |}
  end.

Definition select_first_cell : App → App :=
  with_notebook (λ p, _set_selected_slice p (Slice 0 1 None) true true).

Definition select_5th_previous_cell : App → App :=
  with_notebook (λ p,
    set_selected_slice p
      (Slice (start (selected_slice p) - 5) (start (selected_slice p) - 5 + 1) None)).

Definition select_previous_cell : App → App :=
  with_notebook (λ p,
    set_selected_slice p
      (Slice (start (selected_slice p) - 1) (start (selected_slice p)) None)).

Definition extend_cell_selection_up : App → App :=
  with_notebook (λ p,
    let slice_ := _selected_slice p in
    if bool_decide (start slice_ - 1 = stop slice_) then
      set_selected_slice p (Slice (stop slice_) (start slice_ + 1) (Some 1))
    else
      set_selected_slice p (Slice (start slice_ - 1) (stop slice_) (step slice_))).

Definition extend_cell_selection_down : App → App :=
  with_notebook (λ p,
    let slice_ := _selected_slice p in
    if bool_decide (start slice_ + 1 = stop slice_) then
      set_selected_slice p (Slice (stop slice_) (start slice_ - 1) (Some (-1)))
    else
      set_selected_slice p (Slice (start slice_ + 1) (stop slice_) (step slice_))).

Definition next_child : App → App :=
  with_notebook (λ p,
    set_selected_slice p
      (Slice (start (selected_slice p) + 1) (start (selected_slice p) + 1 + 1) None)).

Definition select_5th_next_cell : App → App :=
  with_notebook (λ p,
    set_selected_slice p
      (Slice (start (selected_slice p) + 5) (start (selected_slice p) + 5 + 1) None)).

Definition select_last_cell : App → App :=
  with_notebook (λ p,
    set_selected_slice p
      (Slice (Z.of_nat (length (children p))) (Z.of_nat (length (children p)) + 1) None)).

Definition select_all_cells : App → App :=
  with_notebook (λ p,
    set_selected_slice p (Slice 0 (Z.of_nat (length (children p)) + 1) None)).

(** *** Observing a run of commands *)

(** The selection of the active notebook, if there is one, and its two
    bounds as the pair [(start, stop)]. *)
Definition selection (app : App) : option slice :=
  _selected_slice ∘ page <$> notebook app.

Definition bounds (s : slice) : Z * Z := (start s, stop s).

Definition selected_bounds (app : App) : option (Z * Z) :=
  bounds <$> selection app.

(** An application whose active notebook has the given cells and selection. *)
Definition app_with (cells : list Cell) (s : slice) : App :=
  {| notebook := Some {| page := {| children := cells; _selected_slice := s |} |} |}.

(** Whether [extend_cell_selection_up] takes its first branch (the one that
    swaps the two ends of the slice) in the given application state. *)
Definition extend_up_flips (app : App) : bool :=
  match notebook app with
  | None => false
  | Some nb =>
      bool_decide (start (_selected_slice (page nb)) - 1 = stop (_selected_slice (page nb)))
  end.

(** The states before each of [n] successive runs of a command. *)
Fixpoint states_before (cmd : App → App) (n : nat) (app : App) : list App :=
  match n with
  | O => []
  | S n' => app :: states_before cmd n' (cmd app)
  end.

(** How many of the first [n] runs of extend-up swap the ends. *)
Definition extend_up_flip_count (n : nat) (app : App) : nat :=
  length (filter (λ a, extend_up_flips a = true) (states_before extend_cell_selection_up n app)).

(** Whether [extend_cell_selection_down] takes its first branch in the given
    application state, and how many of the first [n] runs do. *)
Definition extend_down_flips (app : App) : bool :=
  match notebook app with
  | None => false
  | Some nb =>
      bool_decide (start (_selected_slice (page nb)) + 1 = stop (_selected_slice (page nb)))
  end.

Definition extend_down_flip_count (n : nat) (app : App) : nat :=
  length (filter (λ a, extend_down_flips a = true)
            (states_before extend_cell_selection_down n app)).

(** The cells of the active notebook, if there is one. *)
Definition cells_of (app : App) : option (list Cell) :=
  children ∘ page <$> notebook app.

(** The commands that set the selection. *)
Definition selection_commands : list (App → App) :=
  [select_first_cell; select_5th_previous_cell; select_previous_cell;
   extend_cell_selection_up; extend_cell_selection_down; next_child;
   select_5th_next_cell; select_last_cell; select_all_cells].

End commands.

Arguments Page : clear implicits.
Arguments Notebook : clear implicits.
Arguments App : clear implicits.

End Selection.

(** ** Kernel tabs ([euporie/core/tabs/base.py]) *)

Module Tab.
Import Py.

Definition bytes : Type := list Byte.byte.

(** Modelled from the spec: the comm object built by [open_comm]
    ([euporie.core.comm.registry], outside the given sources), which
    constructs a handler for the content's target name.  The object is kept as
    the arguments it was built from. *)
Record Comm : Type := mkComm {
  comm_content : dict string pyval;
  comm_buffers : list bytes
}.

Definition open_comm (content : dict string pyval) (buffers : list bytes) : Comm :=
  {| comm_content := content; comm_buffers := buffers |}.

(** A dialog object of the application, known by its identity only. *)
Record Dialog : Type := mkDialog { dialog_ident : string }.

(** Callables handed to a dialog. *)
Inductive callback : Type :=
| CbKernelRestart.   (* the bound method [self.kernel.restart] *)

(** Keyword arguments of a dialog's [show]. *)
Inductive show_args : Type :=
| ShowPlain
| ShowConfirm (message : string) (cb : callback)
| ShowChangeKernel (message : option string) (kernel_specs : dict string pyval).

(** Calls made on collaborators. *)
Inductive event : Type :=
| KernelInterrupt
| KernelRestart
| KernelChange (name : string)
| DialogShow (d : Dialog) (kwargs : show_args)
| CommProcessData (c : Comm) (data : pyval) (buffers : list bytes).

(** A [KernelTab] with the parts of its application and kernel that its
    methods read.  Comm and dialog objects define no truth value of their
    own, so a [get] that finds one is true in a condition. *)
Record KernelTab : Type := mkTab {
  comms : gmap string Comm;                  (* [self.comms] *)
  _metadata : dict string pyval;             (* [self._metadata] *)
  app_dialogs : gmap string Dialog;          (* [self.app.dialogs] *)
  default_kernel_name : string;              (* [self.app.config.default_kernel_name] *)
  kernel_specs : dict string pyval;          (* [self.kernel.specs] *)
  trace : list event
}.

Definition set_comms (c : gmap string Comm) (t : KernelTab) : KernelTab :=
  mkTab c (_metadata t) (app_dialogs t) (default_kernel_name t) (kernel_specs t) (trace t).

Definition set_metadata (m : dict string pyval) (t : KernelTab) : KernelTab :=
  mkTab (comms t) m (app_dialogs t) (default_kernel_name t) (kernel_specs t) (trace t).

Definition call (e : event) (t : KernelTab) : KernelTab :=
  mkTab (comms t) (_metadata t) (app_dialogs t) (default_kernel_name t) (kernel_specs t)
        (trace t ++ [e]).

Definition interrupt_kernel (t : KernelTab) : KernelTab :=
  call KernelInterrupt t.

Definition restart_kernel (t : KernelTab) : KernelTab :=
  match app_dialogs t !! "confirm" with
  | Some confirm =>
      call (DialogShow confirm
              (ShowConfirm "Are you sure you want to restart the kernel?" CbKernelRestart)) t
  | None => call KernelRestart t
  end.

Definition metadata (t : KernelTab) : dict string pyval := _metadata t.

(** [obj.get(key, default)]: only dictionaries have a [get]. *)
Definition py_get (obj : pyval) (key : string) (dflt : pyval) : result pyval :=
  match obj with
  | PyDict d => Ok (default dflt (dict_get key d))
  | _ => Err AttributeError
  end.

(** The [kernel_name] property, read side. *)
Definition kernel_name (t : KernelTab) : result pyval :=
  py_get (default (PyDict []) (dict_get "kernelspec" (metadata t)))
         "name" (PyStr (default_kernel_name t)).

(** [d.setdefault(key, dflt)]: the value now under [key], and the dictionary. *)
Definition dict_setdefault (key : string) (dflt : pyval) (d : dict string pyval)
  : pyval * dict string pyval :=
  match dict_get key d with
  | Some v => (v, d)
  | None => (dflt, dict_set key dflt d)
  end.

(** The [kernel_name] property, write side.  The item assignment changes the
    dictionary object that sits under ["kernelspec"]; only a dictionary
    supports it with a string key. *)
Definition kernel_name_setter (value : pyval) (t : KernelTab) : outcome KernelTab :=
  let '(ks, md) := dict_setdefault "kernelspec" (PyDict []) (metadata t) in
  match ks with
  | PyDict d =>
      Returned (set_metadata (dict_set "kernelspec" (PyDict (dict_set "name" value d)) md) t)
  | _ => Raised TypeError (set_metadata md t)
  end.

Definition language (t : KernelTab) : result pyval :=
  py_get (default (PyDict []) (dict_get "kernelspec" (metadata t))) "language" PyNone.

Definition kernel_display_name (t : KernelTab) : result pyval :=
  match kernel_name t with
  | Ok name =>
      py_get (default (PyDict []) (dict_get "kernelspec" (metadata t))) "display_name" name
  | Err e => Err e
  end.

Definition kernel_lang_file_ext (t : KernelTab) : result pyval :=
  py_get (default (PyDict []) (dict_get "language_info" (metadata t)))
         "file_extension" (PyStr ".py").

(** [self.app.dialogs[key]] *)
Definition dialogs_getitem (key : string) (t : KernelTab) : result Dialog :=
  match app_dialogs t !! key with
  | Some d => Ok d
  | None => Err (KeyError key)
  end.

Definition change_kernel (msg : option string) (startup : bool) (t : KernelTab)
  : outcome KernelTab :=
  let kernel_specs := kernel_specs t in
  match kernel_specs with
  | [] =>
      (* Warn the user if no kernels are installed *)
      if startup && negb (bool_decide (is_Some (app_dialogs t !! "no-kernels"))) then
        match dialogs_getitem "no-kernels" t with
        | Ok d => Returned (call (DialogShow d ShowPlain) t)
        | Err e => Raised e t
        end
      else Returned t
  | _ :: _ =>
      (* Automatically select the only kernel if there is only one *)
      if startup && bool_decide (length kernel_specs = 1) then
        match dict_keys kernel_specs with
        | name :: _ => Returned (call (KernelChange name) t)
        | [] => Raised IndexError t
        end
      else
        match dialogs_getitem "change-kernel" t with
        | Ok d => Returned (call (DialogShow d (ShowChangeKernel msg kernel_specs)) t)
        | Err e => Raised e t
        end
  end.

Section comms.
Context `{PyRepr}.

(** [content.get("comm_id")] *)
Definition content_comm_id (content : dict string pyval) : pyval :=
  default PyNone (dict_get "comm_id" content).

Definition comm_open (content : dict string pyval) (buffers : list bytes) (t : KernelTab)
  : KernelTab :=
  let comm_id := py_str (content_comm_id content) in
  set_comms (<[comm_id := open_comm content buffers]> (comms t)) t.

Definition comm_msg (content : dict string pyval) (buffers : list bytes) (t : KernelTab)
  : KernelTab :=
  let comm_id := py_str (content_comm_id content) in
  match comms t !! comm_id with
  | Some comm =>
      call (CommProcessData comm (default (PyDict []) (dict_get "data" content)) buffers) t
  | None => t
  end.

(** [key in self.comms] for an arbitrary value: lists and dictionaries are
    unhashable, and no other value than a string equals a key of the map. *)
Definition comms_contains (key : pyval) (t : KernelTab) : result bool :=
  match key with
  | PyStr s => Ok (bool_decide (is_Some (comms t !! s)))
  | PyNone | PyBool _ | PyInt _ => Ok false
  | PyList _ | PyDict _ => Err TypeError
  end.

Definition comm_close (content : dict string pyval) (buffers : list bytes) (t : KernelTab)
  : outcome KernelTab :=
  let comm_id := content_comm_id content in
  match comms_contains comm_id t with
  | Ok true =>
      match comm_id with
      | PyStr s => Returned (set_comms (delete s (comms t)) t)
      | _ => Returned t
      end
  | Ok false => Returned t
  | Err e => Raised e t
  end.

(** The messages of the comm protocol as the registry sees them: an
    envelope whose content carries the comm id. *)
Definition envelope (comm_id : string) (rest : dict string pyval) : dict string pyval :=
  ("comm_id", PyStr comm_id) :: rest.

(** An open message followed by a close message for the same comm id. *)
Definition open_then_close (comm_id : string)
    (rest_open : dict string pyval) (buffers_open : list bytes)
    (rest_close : dict string pyval) (buffers_close : list bytes)
    (t : KernelTab) : outcome KernelTab :=
  comm_close (envelope comm_id rest_close) buffers_close
    (comm_open (envelope comm_id rest_open) buffers_open t).

End comms.

(** *** Observing a method *)

(** The calls on collaborators made between two states of a tab. *)
Definition new_calls (before after : KernelTab) : list event :=
  drop (length (trace before)) (trace after).

(** Calls by which a kernel gets chosen: changing the kernel, or showing a
    dialog that offers kernel specs to choose from. *)
Definition selects_kernel (e : event) : bool :=
  match e with
  | KernelChange _ | DialogShow _ (ShowChangeKernel _ _) => true
  | _ => false
  end.

(** Showing a dialog without arguments, as the notice about missing kernels
    is shown. *)
Definition shows_notice (e : event) : bool :=
  match e with
  | DialogShow _ ShowPlain => true
  | _ => false
  end.

(** [set_kernel_info(info)] *)
Definition set_kernel_info (info : dict string pyval) (t : KernelTab) : KernelTab :=
  set_metadata
    (dict_set "language_info" (default (PyDict []) (dict_get "language_info" info))
       (metadata t)) t.

End Tab.

(** ** The log queue ([euporie/log.py]) *)

Module Log.
Import Py.

(** [collections.deque]: the items, oldest first, and the optional bound. *)
Record deque (A : Type) : Type := mkDeque {
  maxlen : option nat;
  items : list A
}.
Arguments mkDeque {A} maxlen items.
Arguments maxlen {A} d.
Arguments items {A} d.

(** [deque(maxlen=n)] *)
Definition deque_new {A : Type} (n : nat) : deque A :=
  {| maxlen := Some n; items := [] |}.

(** [d.append(x)]: once a bounded deque is full, adding an item on the right
    discards one from the left. *)
Definition append {A : Type} (x : A) (d : deque A) : deque A :=
  let l := items d ++ [x] in
  match maxlen d with
  | Some n => {| maxlen := Some n; items := if bool_decide (n < length l) then drop 1 l else l |}
  | None => {| maxlen := None; items := l |}
  end.

(** A bounded deque never holds more than its bound. *)
Definition deque_ok {A : Type} (d : deque A) : Prop :=
  match maxlen d with
  | Some n => length (items d) ≤ n
  | None => True
  end.

(** What can be registered as a hook: a function, known by its name, or any
    other value. *)
Inductive pyobj : Type :=
| PyFunc (name : string)
| PyData (v : pyval).

Definition callable (o : pyobj) : bool :=
  match o with PyFunc _ => true | PyData _ => false end.

Section handler.
Context {LogRecord : Type}.

(** [LOG_QUEUE] *)
Definition LOG_QUEUE : deque LogRecord := deque_new 1000.

(** The handler: its queue, the class attributes [hook_id] and [hooks], and
    the calls made to hook functions (function name and record), oldest
    first. *)
Record QueueHandler : Type := mkHandler {
  queue : deque LogRecord;
  hook_id : Z;
  hooks : dict Z pyobj;
  calls : list (string * LogRecord)
}.

(** [QueueHandler(queue)], on a class that has not been used yet. *)
Definition QueueHandler_init (q : deque LogRecord) : QueueHandler :=
  {| queue := q; hook_id := 0; hooks := []; calls := [] |}.

(** [if callable(hook): hook(record)] *)
Definition run_hook (record : LogRecord) (log : list (string * LogRecord)) (hook : pyobj)
  : list (string * LogRecord) :=
  match hook with
  | PyFunc f => log ++ [(f, record)]
  | PyData _ => log
  end.

Definition emit (record : LogRecord) (h : QueueHandler) : QueueHandler :=
  {| queue := append record (queue h);
     hook_id := hook_id h;
     hooks := hooks h;
     calls := foldl (run_hook record) (calls h) (dict_values (hooks h)) |}.

(** [hook_id = QueueHandler.hook(f)] *)
Definition hook (f : pyobj) (h : QueueHandler) : Z * QueueHandler :=
  let hook_id_ := hook_id h in
  (hook_id_,
   {| queue := queue h;
      hook_id := (hook_id h + 1)%Z;
      hooks := dict_set hook_id_ f (hooks h);
      calls := calls h |}).

Definition unhook (hook_id_ : Z) (h : QueueHandler) : QueueHandler :=
  if dict_mem hook_id_ (hooks h) then
    {| queue := queue h;
       hook_id := hook_id h;
       hooks := dict_del hook_id_ (hooks h);
       calls := calls h |}
  else h.

(** *** Runs of the handler *)

(** Emitting a sequence of records, first to last. *)
Definition emit_all (records : list LogRecord) (h : QueueHandler) : QueueHandler :=
  foldl (λ h' r, emit r h') h records.

(** The calls one record causes: one per callable hook, in the order of
    registration. *)
Definition hook_calls (record : LogRecord) (hs : dict Z pyobj) : list (string * LogRecord) :=
  omap (λ o, match o with PyFunc f => Some (f, record) | PyData _ => None end)
       (dict_values hs).

(** The operations a client of the handler can perform. *)
Inductive op : Type :=
| OpEmit (record : LogRecord)
| OpHook (f : pyobj)
| OpUnhook (hook_id_ : Z).

(** Runs the operations in order; returns the ids that the [hook] calls
    returned, in order, and the final handler. *)
Fixpoint run (ops : list op) (h : QueueHandler) : list Z * QueueHandler :=
  match ops with
  | [] => ([], h)
  | OpEmit r :: ops' => run ops' (emit r h)
  | OpHook f :: ops' =>
      let '(i, h') := hook f h in
      let '(ids, h'') := run ops' h' in
      (i :: ids, h'')
  | OpUnhook i :: ops' => run ops' (unhook i h)
  end.


(** Every id in the registry was handed out by an earlier [hook]. *)
Definition hooks_ok (h : QueueHandler) : Prop :=
  Forall (λ i, (i < hook_id h)%Z) (dict_keys (hooks h)).

End handler.

Arguments QueueHandler : clear implicits.
Arguments op : clear implicits.

End Log.

(** ** The log view ([LogView] in [euporie/log.py]) *)

Module LogView.
Import Py.

(** [bisect.bisect_right(a, x)] on a sorted list: the number of items that
    are at most [x]. *)
Definition bisect_right (a : list Z) (x : Z) : nat :=
  length (filter (λ e, (e ≤ x)%Z) a).

(** [l[i]] for a list: a negative index counts from the end, an index
    outside the list raises. *)
Definition list_getitem {A : Type} (l : list A) (i : Z) : result A :=
  let j := if bool_decide (i < 0)%Z then (i + Z.of_nat (length l))%Z else i in
  if bool_decide (0 ≤ j)%Z then
    match l !! Z.to_nat j with
    | Some x => Ok x
    | None => Err IndexError
    end
  else Err IndexError.

(** [f"{s:>7}"] and the like: right-aligned in a field of the given width,
    never cut.  Lengths are counted in bytes, which is the number of
    characters for ASCII text. *)
Definition rjust (width : nat) (s : string) : string :=
  String.concat "" (replicate (width - String.length s) " ") +:+ s.

Definition levels : list Z := [0; 10; 20; 30; 40; 50; 60]%Z.

Definition level_colors : list string :=
  ["grey"; "blue"; "green"; "yellow"; "red"; "red bold"].

Section log_view.
(** The creation time of a record, and [Formatter.formatTime] applied to it
    with the date format ["%Y%m%d.%H%M%S"]. *)
Context {Time : Type} (formatTime : Time → string).

(** The attributes of a [logging.LogRecord] that the view reads;
    [getMessage] is the result of the method of that name. *)
Record LogRecord : Type := mkLogRecord {
  created : Time;
  levelno : Z;
  levelname : string;
  name : string;
  funcName : string;
  lineno : Z;
  getMessage : string
}.

(** [render(record)].  The view's formatter is a default [logging.Formatter],
    whose [formatMessage] gives back the record's message. *)
Definition render (record : LogRecord) : result (list (string * string)) :=
  let date := formatTime (created record) in
  let msg := getMessage record in
  match list_getitem level_colors
          (Z.max 0 (Z.of_nat (bisect_right levels (levelno record)) - 1)) with
  | Ok colour =>
      Ok [("#00875f", date +:+ " ");
          (colour, rjust 7 (levelname record) +:+ " ");
          ("ansidefault", msg +:+ " ");
          ("fg:#888888 italic",
           name record +:+ "." +:+ funcName record +:+ ":" +:+ pretty (lineno record) +:+ " ");
          ("", String (Ascii.ascii_of_nat 10) EmptyString)]
  | Err e => Err e
  end.

(** The view: the formatted text of its text area. *)
Record LogView : Type := mkLogView { formatted_text : list (string * string) }.




End log_view.

Arguments LogRecord : clear implicits.

End LogView.

(** ** The tab base class ([Tab] in [euporie/core/tabs/base.py]) *)

Module TabBase.
Import Py.

(** What is passed as the callback of [close]: nothing, a function known by
    its name, or some other value. *)
Inductive cb_arg : Type :=
| CbNone
| CbFunc (name : string)
| CbOther (v : pyval).

(** The application as a tab sees it.  Tabs are known by a number;
    [container_statuses] maps a tab to the bound method [statusbar_fields] of
    a tab, known by that tab's number.  [called] lists the callbacks run and
    [focused] the tabs given to [focus_tab], oldest first. *)
Record App : Type := mkApp {
  container_statuses : gmap nat nat;
  called : list string;
  focused : list nat
}.

(** [Tab.__init__(app, path)] for the tab [self] *)
Definition Tab_init (self : nat) (app : App) : App :=
  {| container_statuses := <[self := self]> (container_statuses app);
     called := called app;
     focused := focused app |}.

(** [self.close(cb)] *)
Definition close (self : nat) (cb : cb_arg) (app : App) : App :=
  let statuses :=
    if bool_decide (is_Some (container_statuses app !! self))
    then delete self (container_statuses app)
    else container_statuses app in
  {| container_statuses := statuses;
     called := match cb with
               | CbFunc f => called app ++ [f]
               | CbNone | CbOther _ => called app
               end;
     focused := focused app |}.

(** [self.focus()] *)
Definition focus (self : nat) (app : App) : App :=
  {| container_statuses := container_statuses app;
     called := called app;
     focused := focused app ++ [self] |}.

End TabBase.

(** ** The preview notebook ([euporie/preview/tabs/notebook.py]) *)

Module Preview.
Import Py.

Section preview.
(** An entry of the notebook's JSON cell list. *)
Context {CellJson : Type}.

(** The preview tab: the index of the cell being rendered, [json["cells"]],
    whether the tab is the application's current tab, and how often the tab
    was handed to [app.close_tab]. *)
Record PreviewNotebook : Type := mkPreview {
  cell_index : Z;
  json_cells : list CellJson;
  is_current : bool;
  close_tab_calls : nat
}.

(** [after_render(app)] *)
Definition after_render (nb : PreviewNotebook) : PreviewNotebook :=
  if is_current nb then
    if bool_decide (cell_index nb < Z.of_nat (length (json_cells nb)) - 1)%Z then
      {| cell_index := (cell_index nb + 1)%Z;
         json_cells := json_cells nb;
         is_current := is_current nb;
         close_tab_calls := close_tab_calls nb |}
    else
      {| cell_index := cell_index nb;
         json_cells := json_cells nb;
         is_current := is_current nb;
         close_tab_calls := S (close_tab_calls nb) |}
  else nb.

(** [get_cell(index)]: the cell object, as the index and the JSON it is
    built from. *)
Definition get_cell (index : Z) (nb : PreviewNotebook) : result (Z * CellJson) :=
  match LogView.list_getitem (json_cells nb) index with
  | Ok c => Ok (index, c)
  | Err e => Err e
  end.

(** [cell()]: the cache of cells builds a missing entry with [get_cell]. *)
Definition cell (nb : PreviewNotebook) : result (Z * CellJson) :=
  get_cell (cell_index nb) nb.

(** A tab as [__init__] leaves it: on the first cell. *)
Definition PreviewNotebook_init (cells : list CellJson) (current : bool) : PreviewNotebook :=
  {| cell_index := 0; json_cells := cells; is_current := current; close_tab_calls := 0 |}.

End preview.

Arguments PreviewNotebook : clear implicits.

End Preview.

(** * Properties *)

(** ** The selection state machine *)

Section selection_props.
Import Selection.
Local Open Scope Z_scope.
Context {Cell : Type}.
Implicit Types (cells : list Cell) (s : slice) (app : App Cell).

Lemma app_with_bounds cells a b a' b' st :
  a = a' → b = b' → app_with cells (Slice a b st) = app_with cells (Slice a' b' st).
Proof. by intros -> ->. Qed.

Lemma extend_up_grows cells a b st :
  a - 1 ≠ b →
  extend_cell_selection_up (app_with cells (Slice a b st))
  = app_with cells (Slice (a - 1) b st).
Proof.
  intros Hne. unfold extend_cell_selection_up, with_notebook, app_with; simpl.
  by rewrite bool_decide_eq_false_2.
Qed.

Lemma extend_up_swaps cells b st :
  extend_cell_selection_up (app_with cells (Slice (b + 1) b st))
  = app_with cells (Slice b (b + 2) (Some 1)).
Proof.
  unfold extend_cell_selection_up, with_notebook, app_with; simpl.
  case_bool_decide; [|lia].
  apply (app_with_bounds cells); lia.
Qed.

(** As long as the low end is below the high end, every extend-up lowers
    the low end by one and keeps the rest. *)
Lemma extend_up_iter cells (n : nat) : ∀ a b st,
  a ≤ b →
  Nat.iter n extend_cell_selection_up (app_with cells (Slice a b st))
  = app_with cells (Slice (a - Z.of_nat n) b st).
Proof.
  induction n as [|n IH]; intros a b st Hab.
  - simpl. apply app_with_bounds; lia.
  - rewrite Nat.iter_succ_r, extend_up_grows by lia.
    rewrite IH by lia. apply app_with_bounds; lia.
Qed.

Lemma extend_up_never_flips cells (n : nat) : ∀ a b st,
  a ≤ b →
  extend_up_flip_count n (app_with cells (Slice a b st)) = 0%nat.
Proof.
  unfold extend_up_flip_count.
  induction n as [|n IH]; intros a b st Hab; [done|].
  cbn [states_before]. rewrite filter_cons_False.
  - rewrite extend_up_grows by lia. apply IH. lia.
  - unfold extend_up_flips, app_with; simpl.
    rewrite bool_decide_eq_false_2 by lia. done.
Qed.

(** C1, as amended.  From a single-cell selection [(k, k+1)], [n]
    applications of extend-up give [(k - n, k + 1)]: the low end goes down by
    one at every step, the high end and the step stay, and the branch taken
    when [start - 1 == stop] is never entered.  After select-last on a
    notebook of [N] cells the selection is [(N, N+1)], so [n] extend-ups give
    [(N - n, N + 1)]; for [N = 10] that is [(9,11)], [(8,11)], [(7,11)], ... *)
Theorem extend_up_from_single_cell cells (k : Z) st (n : nat) :
  Nat.iter n extend_cell_selection_up (app_with cells (Slice k (k + 1) st))
  = app_with cells (Slice (k - Z.of_nat n) (k + 1) st)
  ∧ extend_up_flip_count n (app_with cells (Slice k (k + 1) st)) = 0%nat
  ∧ ∀ s,
      Nat.iter n extend_cell_selection_up (select_last_cell (app_with cells s))
      = app_with cells
          (Slice (Z.of_nat (length cells) - Z.of_nat n) (Z.of_nat (length cells) + 1) None).
Proof.
  split_and!.
  - apply extend_up_iter. lia.
  - apply extend_up_never_flips. lia.
  - intros s.
    change (select_last_cell (app_with cells s))
      with (app_with cells
              (Slice (Z.of_nat (length cells)) (Z.of_nat (length cells) + 1) None)).
    apply extend_up_iter. lia.
Qed.

(** C1 as stated fails in its own scenario.  With ten cells, select-last
    gives [(10, 11)]; one extend-up gives [(9, 11)] and the next one leaves it
    for [(8, 11)]; none of the five extend-ups swaps the ends, where the claim
    wants exactly one that does. *)
Lemma extend_up_scenario_has_no_flip :
  selected_bounds
    (select_last_cell (app_with (replicate 10 ()) (Slice 0 1 None)))
  = Some (10, 11)
  ∧ selected_bounds
      (Nat.iter 1 extend_cell_selection_up
         (select_last_cell (app_with (replicate 10 ()) (Slice 0 1 None))))
    = Some (9, 11)
  ∧ selected_bounds
      (Nat.iter 2 extend_cell_selection_up
         (select_last_cell (app_with (replicate 10 ()) (Slice 0 1 None))))
    = Some (8, 11)
  ∧ extend_up_flip_count 5
      (select_last_cell (app_with (replicate 10 ()) (Slice 0 1 None)))
    = 0%nat
  ∧ extend_up_flip_count 5
      (select_last_cell (app_with (replicate 10 ()) (Slice 0 1 None)))
    ≠ 1%nat.
Proof. split_and!; [reflexivity.. | discriminate]. Qed.

(** C2, as amended.  Move-down followed by move-up leaves the single-cell
    selection [(start, start + 1)]: the start is restored, the stop is not
    kept.  The result is the original pair exactly when the original
    selection was the single cell [(start, start + 1)]. *)
Theorem move_down_then_up cells s :
  select_previous_cell (next_child (app_with cells s))
  = app_with cells (Slice (start s) (start s + 1) None)
  ∧ (selected_bounds (select_previous_cell (next_child (app_with cells s)))
     = selected_bounds (app_with cells s)
     ↔ stop s = start s + 1).
Proof.
  assert (select_previous_cell (next_child (app_with cells s))
          = app_with cells (Slice (start s) (start s + 1) None)) as E.
  { unfold select_previous_cell, next_child, with_notebook; simpl.
    apply app_with_bounds; lia. }
  split; [exact E|]. rewrite E.
  unfold selected_bounds, selection, bounds, app_with; simpl.
  split; [intros [= ->]; lia | intros ->; done].
Qed.

(** C2 as stated fails on a selection of several cells: from [(0, 3)] in a
    notebook of five cells, where nothing is out of range, move-down then
    move-up ends on [(0, 1)]. *)
Lemma move_down_then_up_loses_stop :
  selected_bounds
    (select_previous_cell (next_child (app_with (replicate 5 ()) (Slice 0 3 None))))
  = Some (0, 1)
  ∧ selected_bounds
      (select_previous_cell (next_child (app_with (replicate 5 ()) (Slice 0 3 None))))
    ≠ selected_bounds (app_with (replicate 5 ()) (Slice 0 3 None)).
Proof. split; [reflexivity | discriminate]. Qed.

(** C4.  Whatever the selection was, select-last leaves [(N, N + 1)] and
    select-all leaves [(0, N + 1)], where [N] is the number of cells; the
    cells themselves are untouched. *)
Theorem select_last_and_select_all cells s :
  select_last_cell (app_with cells s)
  = app_with cells (Slice (Z.of_nat (length cells)) (Z.of_nat (length cells) + 1) None)
  ∧ select_all_cells (app_with cells s)
    = app_with cells (Slice 0 (Z.of_nat (length cells) + 1) None).
Proof. split; reflexivity. Qed.

End selection_props.

(** ** Kernel tabs *)

Section dict_props.
Import Py.
Context {K V : Type} `{EqDecision K}.
Implicit Types (d : dict K V) (k : K) (v : V).

Lemma dict_get_set_eq d k v : dict_get k (dict_set k v d) = Some v.
Proof.
  induction d as [|[k' v'] d IH]; simpl.
  - by rewrite decide_True.
  - destruct (decide (k' = k)); simpl.
    + by rewrite decide_True.
    + by rewrite decide_False.
Qed.

Lemma dict_get_set_ne d k k' v : k ≠ k' → dict_get k' (dict_set k v d) = dict_get k' d.
Proof.
  intros Hne. induction d as [|[k0 v0] d IH]; simpl.
  - by rewrite decide_False.
  - destruct (decide (k0 = k)) as [->|]; simpl.
    + by rewrite !decide_False.
    + destruct (decide (k0 = k')); done.
Qed.

Lemma dict_get_None_keys d k : dict_get k d = None ↔ k ∉ dict_keys d.
Proof.
  unfold dict_keys. induction d as [|[k0 v0] d IH]; simpl.
  - split; [intros _; apply not_elem_of_nil | done].
  - rewrite not_elem_of_cons. destruct (decide (k0 = k)) as [->|Hne].
    + split; [done | by intros [? _]].
    + rewrite IH. split; [by intros ?; split; [congruence|] | by intros [_ ?]].
Qed.

Lemma dict_keys_del d k : dict_keys (dict_del k d) = filter (λ k', k' ≠ k) (dict_keys d).
Proof.
  unfold dict_keys. induction d as [|[k0 v0] d IH]; simpl; [done|].
  destruct (decide (k0 = k)) as [->|].
  - rewrite filter_cons_False; [done | by intros []].
  - rewrite filter_cons_True by done. rewrite fmap_cons. simpl. by f_equal.
Qed.

End dict_props.

Section tab_props.
Import Py Tab.
Implicit Types (t : KernelTab) (content rest : dict string pyval) (buffers : list bytes).

Lemma new_calls_call t e : new_calls t (call e t) = [e].
Proof. unfold new_calls, call; simpl. by rewrite drop_app_length. Qed.

Lemma new_calls_same t : new_calls t t = [].
Proof. unfold new_calls. by rewrite drop_all. Qed.

(** On a startup check with no kernel specs the notice is never shown: the
    dialog is looked up only under a key that the registry lacks. *)
Lemma change_kernel_startup_without_specs (msg : option string) t :
  kernel_specs t = [] →
  new_calls t (final (change_kernel msg true t)) = []
  ∧ (app_dialogs t !! "no-kernels" = None →
     change_kernel msg true t = Raised (KeyError "no-kernels") t)
  ∧ (is_Some (app_dialogs t !! "no-kernels") → change_kernel msg true t = Returned t).
Proof.
  intros Hs. unfold change_kernel, dialogs_getitem. rewrite Hs; simpl.
  destruct (app_dialogs t !! "no-kernels") as [d|] eqn:Hd.
  - rewrite bool_decide_eq_true_2 by by eexists. simpl.
    split_and!; [apply new_calls_same | done | done].
  - rewrite bool_decide_eq_false_2 by by intros [? [=]]. simpl.
    split_and!; [apply new_calls_same | done | by intros [? [=]]].
Qed.

(** C3, as amended.  With no kernel specs, [change_kernel] never chooses a
    kernel nor shows the selection dialog, and when the call is not a startup
    check it returns with nothing shown.  With exactly one spec on a startup
    check, that spec is selected and nothing is shown.  In every other case
    with specs, a registered ["change-kernel"] dialog is shown with the
    message and the specs. *)
Theorem change_kernel_cases (msg : option string) (startup : bool) t :
  (kernel_specs t = [] →
     (∀ e, e ∈ new_calls t (final (change_kernel msg startup t)) → selects_kernel e = false)
     ∧ (startup = false → change_kernel msg startup t = Returned t))
  ∧ (∀ name spec, kernel_specs t = [(name, spec)] → startup = true →
       change_kernel msg startup t = Returned (call (KernelChange name) t))
  ∧ (kernel_specs t ≠ [] → startup = false ∨ length (kernel_specs t) ≠ 1 →
     ∀ d, app_dialogs t !! "change-kernel" = Some d →
       change_kernel msg startup t
       = Returned (call (DialogShow d (ShowChangeKernel msg (kernel_specs t))) t)).
Proof.
  unfold change_kernel, dialogs_getitem. split_and!.
  - intros ->. split.
    + destruct startup; simpl; [|by rewrite new_calls_same; intros ? ?%elem_of_nil].
      case_bool_decide as Hd; simpl.
      * by rewrite new_calls_same; intros ? ?%elem_of_nil.
      * apply eq_None_not_Some in Hd. rewrite Hd; simpl.
        by rewrite new_calls_same; intros ? ?%elem_of_nil.
    + by intros ->.
  - intros name spec -> ->. done.
  - intros Hne Hcase d Hd. destruct (kernel_specs t) as [|kv specs] eqn:E; [done|].
    rewrite Hd. destruct Hcase as [->|Hlen]; [done|].
    rewrite (bool_decide_eq_false_2 _ Hlen). by rewrite andb_false_r.
Qed.

(** C3 as stated fails when the call is not a startup check: with no kernel
    specs and a ["no-kernels"] dialog at hand, [change_kernel] returns and
    surfaces no notice at all. *)
Lemma change_kernel_silent_without_startup :
  change_kernel None false
    (mkTab ∅ [] {["no-kernels" := mkDialog "no-kernels"]} "python3" [] [])
  = Returned (mkTab ∅ [] {["no-kernels" := mkDialog "no-kernels"]} "python3" [] [])
  ∧ ¬ ∃ e, e ∈ trace (final (change_kernel None false
                (mkTab ∅ [] {["no-kernels" := mkDialog "no-kernels"]} "python3" [] [])))
           ∧ shows_notice e = true.
Proof.
  split; [reflexivity|]. intros (e & He & _). simpl in He. by apply elem_of_nil in He.
Qed.

(** C6.  With a confirmation dialog at hand, [restart_kernel] makes one
    call, showing that dialog with the kernel's [restart] as its callback,
    and does not call [restart] itself; without one it calls [restart] at
    once. *)
Theorem restart_kernel_gated t :
  (∀ confirm, app_dialogs t !! "confirm" = Some confirm →
     new_calls t (restart_kernel t)
     = [DialogShow confirm
          (ShowConfirm "Are you sure you want to restart the kernel?" CbKernelRestart)]
     ∧ KernelRestart ∉ new_calls t (restart_kernel t))
  ∧ (app_dialogs t !! "confirm" = None →
     new_calls t (restart_kernel t) = [KernelRestart]).
Proof.
  unfold restart_kernel. split.
  - intros confirm ->. rewrite new_calls_call. split; [done|].
    by intros [=]%list_elem_of_singleton.
  - intros ->. apply new_calls_call.
Qed.

Lemma set_metadata_same t : set_metadata (metadata t) t = t.
Proof. by destruct t. Qed.

(** C8.  The [kernel_name] setter leaves every top-level metadata key
    other than ["kernelspec"] as it was; inside an existing ["kernelspec"]
    dictionary it sets ["name"] and leaves every other key as it was; a
    missing ["kernelspec"] becomes the dictionary holding the name alone; a
    ["kernelspec"] that is no dictionary makes the assignment raise with the
    tab unchanged.  Nothing but the metadata changes.  The getter returns the
    configured default when the metadata has no ["kernelspec"], or one
    without a ["name"]. *)
Theorem kernel_name_setter_frame (value : pyval) t :
  (∀ k, k ≠ "kernelspec" →
     dict_get k (metadata (final (kernel_name_setter value t))) = dict_get k (metadata t))
  ∧ (∀ ks, dict_get "kernelspec" (metadata t) = Some (PyDict ks) →
       ∃ ks', kernel_name_setter value t
              = Returned (set_metadata (dict_set "kernelspec" (PyDict ks') (metadata t)) t)
              ∧ dict_get "kernelspec" (metadata (final (kernel_name_setter value t)))
                = Some (PyDict ks')
              ∧ dict_get "name" ks' = Some value
              ∧ ∀ k, k ≠ "name" → dict_get k ks' = dict_get k ks)
  ∧ (dict_get "kernelspec" (metadata t) = None →
       dict_get "kernelspec" (metadata (final (kernel_name_setter value t)))
       = Some (PyDict [("name", value)]))
  ∧ (∀ v, dict_get "kernelspec" (metadata t) = Some v → (∀ ks, v ≠ PyDict ks) →
       kernel_name_setter value t = Raised TypeError t)
  ∧ (comms (final (kernel_name_setter value t)) = comms t
     ∧ default_kernel_name (final (kernel_name_setter value t)) = default_kernel_name t
     ∧ app_dialogs (final (kernel_name_setter value t)) = app_dialogs t
     ∧ kernel_specs (final (kernel_name_setter value t)) = kernel_specs t
     ∧ trace (final (kernel_name_setter value t)) = trace t)
  ∧ (dict_get "kernelspec" (metadata t) = None
     ∨ (∃ ks, dict_get "kernelspec" (metadata t) = Some (PyDict ks)
              ∧ dict_get "name" ks = None) →
     kernel_name t = Ok (PyStr (default_kernel_name t))).
Proof.
  unfold kernel_name_setter, dict_setdefault, kernel_name.
  destruct (dict_get "kernelspec" (metadata t)) as [v|] eqn:E.
  - split_and!; try (by destruct v).
    + intros k Hk. destruct v; simpl; try done.
      unfold metadata; simpl. by rewrite dict_get_set_ne.
    + intros ks [= ->]. eexists. split_and!; [done| |apply dict_get_set_eq|].
      * unfold metadata; simpl. apply dict_get_set_eq.
      * intros k Hk. by apply dict_get_set_ne.
    + intros v' [= <-] Hv. destruct v; try by rewrite set_metadata_same.
      by destruct (Hv d).
    + intros [|(ks & [= ->] & Hn)]; [done|]. simpl. by rewrite Hn.
  - split_and!; try done.
    + intros k Hk. unfold metadata; simpl. by rewrite !dict_get_set_ne.
    + intros _. unfold metadata; simpl. by rewrite dict_get_set_eq.
Qed.

Lemma set_comms_same t : set_comms (comms t) t = t.
Proof. by destruct t. Qed.

Section comm_props.
Context `{PyRepr}.

Lemma comm_open_envelope (id : string) rest buffers t :
  comm_open (envelope id rest) buffers t
  = set_comms (<[id := open_comm (envelope id rest) buffers]> (comms t)) t.
Proof. done. Qed.

Lemma comm_close_envelope (id : string) rest buffers t :
  comm_close (envelope id rest) buffers t
  = Returned (if bool_decide (is_Some (comms t !! id))
              then set_comms (delete id (comms t)) t else t).
Proof.
  unfold comm_close, envelope, content_comm_id; simpl.
  by case_bool_decide.
Qed.

Lemma comm_msg_absent (id : string) rest buffers t :
  comms t !! id = None → comm_msg (envelope id rest) buffers t = t.
Proof. intros Hid. unfold comm_msg, envelope, content_comm_id; simpl. by rewrite Hid. Qed.

Lemma comm_close_absent (id : string) rest buffers t :
  comms t !! id = None → comm_close (envelope id rest) buffers t = Returned t.
Proof.
  intros Hid. rewrite comm_close_envelope, bool_decide_eq_false_2; [done|].
  rewrite Hid. by intros [? [=]].
Qed.

(** Whether or not the id was registered before, closing after opening
    leaves the registry without it. *)
Lemma open_then_close_comms (id : string) rest1 b1 rest2 b2 t :
  raised (open_then_close id rest1 b1 rest2 b2 t) = None
  ∧ comms (final (open_then_close id rest1 b1 rest2 b2 t)) = delete id (comms t).
Proof.
  unfold open_then_close. rewrite comm_close_envelope, comm_open_envelope; simpl.
  split; [done|]. rewrite bool_decide_eq_true_2.
  - simpl. apply delete_insert_eq.
  - rewrite lookup_insert_eq. by eexists.
Qed.

(** C5, as amended.  For every string comm id, an open followed by a close
    returns without raising and leaves the registry as the one before the
    open without that id; a message for the id then changes nothing and calls
    no comm handler; a second close returns without raising and changes
    nothing.  The registry is back to its size before the open when the id
    was not registered then (the tab is then as before the open), and one
    smaller when it was. *)
Theorem comm_lifecycle (id : string) rest1 b1 rest2 b2 rest3 b3 rest4 b4 t :
  raised (open_then_close id rest1 b1 rest2 b2 t) = None
  ∧ comms (final (open_then_close id rest1 b1 rest2 b2 t)) = delete id (comms t)
  ∧ comm_msg (envelope id rest3) b3 (final (open_then_close id rest1 b1 rest2 b2 t))
    = final (open_then_close id rest1 b1 rest2 b2 t)
  ∧ new_calls (final (open_then_close id rest1 b1 rest2 b2 t))
      (comm_msg (envelope id rest3) b3 (final (open_then_close id rest1 b1 rest2 b2 t)))
    = []
  ∧ comm_close (envelope id rest4) b4
      (comm_msg (envelope id rest3) b3 (final (open_then_close id rest1 b1 rest2 b2 t)))
    = Returned (final (open_then_close id rest1 b1 rest2 b2 t))
  ∧ (comms t !! id = None →
     open_then_close id rest1 b1 rest2 b2 t = Returned t
     ∧ size (comms (final (open_then_close id rest1 b1 rest2 b2 t))) = size (comms t))
  ∧ (is_Some (comms t !! id) →
     S (size (comms (final (open_then_close id rest1 b1 rest2 b2 t)))) = size (comms t)).
Proof.
  destruct (open_then_close_comms id rest1 b1 rest2 b2 t) as [Hraised Hcomms].
  assert (comms (final (open_then_close id rest1 b1 rest2 b2 t)) !! id = None) as Hgone
    by (rewrite Hcomms; apply lookup_delete_eq).
  rewrite (comm_msg_absent id rest3 b3 _ Hgone).
  split_and!.
  - exact Hraised.
  - exact Hcomms.
  - done.
  - apply new_calls_same.
  - by apply comm_close_absent.
  - intros Hid.
    assert (open_then_close id rest1 b1 rest2 b2 t = Returned t) as ->; [|done].
    unfold open_then_close.
    rewrite comm_close_envelope, comm_open_envelope; simpl.
    rewrite bool_decide_eq_true_2 by (rewrite lookup_insert_eq; by eexists).
    destruct t; unfold set_comms; simpl in *.
    by rewrite delete_insert_id.
  - intros [c Hc]. rewrite Hcomms.
    rewrite <-(insert_delete_id (comms t) id c Hc) at 2.
    rewrite map_size_insert_None by apply lookup_delete_eq. done.
Qed.

(** C9.  [comm_open] and [comm_msg] look the comm up under [str] of the
    content's comm id, [comm_close] under the id itself.  So an open message
    without a comm id registers its comm under the key ["None"]; a message
    without a comm id is handed to that comm; and a close message without a
    comm id returns with the tab unchanged, the comm still registered. *)
Theorem comm_close_does_not_coerce content1 b1 content2 b2 t :
  dict_get "comm_id" content1 = None →
  dict_get "comm_id" content2 = None →
  comms (comm_open content1 b1 t) = <["None" := open_comm content1 b1]> (comms t)
  ∧ new_calls (comm_open content1 b1 t) (comm_msg content2 b2 (comm_open content1 b1 t))
    = [CommProcessData (open_comm content1 b1)
         (default (PyDict []) (dict_get "data" content2)) b2]
  ∧ comm_close content2 b2 (comm_open content1 b1 t) = Returned (comm_open content1 b1 t)
  ∧ comms (final (comm_close content2 b2 (comm_open content1 b1 t))) !! "None"
    = Some (open_comm content1 b1).
Proof.
  intros H1 H2.
  assert (comms (comm_open content1 b1 t) = <["None" := open_comm content1 b1]> (comms t))
    as Hopen.
  { unfold comm_open, content_comm_id. by rewrite H1. }
  assert (comm_close content2 b2 (comm_open content1 b1 t)
          = Returned (comm_open content1 b1 t)) as Hclose.
  { unfold comm_close, content_comm_id. by rewrite H2. }
  split_and!; [done | | done |].
  - unfold comm_msg, content_comm_id. rewrite H2.
    change (py_str (default PyNone None)) with "None".
    rewrite Hopen, lookup_insert_eq. apply new_calls_call.
  - rewrite Hclose. cbn [final]. by rewrite Hopen, lookup_insert_eq.
Qed.

End comm_props.

(** C5 as stated fails for an id that is already registered when the open
    arrives: the open replaces the comm, the close removes it, and a registry
    of one comm ends with none. *)
Lemma comm_reopen_then_close_shrinks :
  size (comms (mkTab {["w1" := open_comm [] []]} [] ∅ "python3" [] [])) = 1
  ∧ size (comms (final (@open_then_close repr_unused "w1" [] [] [] []
                   (mkTab {["w1" := open_comm [] []]} [] ∅ "python3" [] []))))
    = 0
  ∧ size (comms (final (@open_then_close repr_unused "w1" [] [] [] []
                   (mkTab {["w1" := open_comm [] []]} [] ∅ "python3" [] []))))
    ≠ size (comms (mkTab {["w1" := open_comm [] []]} [] ∅ "python3" [] [])).
Proof.
  assert (comms (final (@open_then_close repr_unused "w1" [] [] [] []
                   (mkTab {["w1" := open_comm [] []]} [] ∅ "python3" [] [])))
          = ∅) as E.
  { destruct (@open_then_close_comms repr_unused "w1" [] [] [] []
                (mkTab {["w1" := open_comm [] []]} [] ∅ "python3" [] [])) as [_ ->].
    simpl. apply delete_singleton_eq. }
  rewrite E. simpl. rewrite map_size_singleton, map_size_empty. done.
Qed.

Lemma comm_close_does_not_coerce_example :
  dict_get "comm_id" [("target_name", PyStr "jupyter.widget")] = None
  ∧ dict_get "comm_id" ([] : dict string pyval) = None
  ∧ comms (final (comm_close [] []
             (@comm_open repr_unused [("target_name", PyStr "jupyter.widget")] []
                (mkTab ∅ [] ∅ "python3" [] [])))) !! "None"
    = Some (open_comm [("target_name", PyStr "jupyter.widget")] []).
Proof.
  split_and!; [reflexivity | reflexivity |].
  apply (@comm_close_does_not_coerce repr_unused
           [("target_name", PyStr "jupyter.widget")] [] [] []
           (mkTab ∅ [] ∅ "python3" [] [])); reflexivity.
Defined.

End tab_props.

(** ** The log queue *)

Section log_props.
Import Py Log.
Context {LogRecord : Type}.
Implicit Types (h : QueueHandler LogRecord) (r : LogRecord) (records : list LogRecord)
  (d : deque LogRecord) (hs : dict Z pyobj).

(** The last [n] items of a list. *)
Lemma keep_last_app {A} (n : nat) (l k : list A) :
  drop (length (drop (length l - n) l ++ k) - n) (drop (length l - n) l ++ k)
  = drop (length (l ++ k) - n) (l ++ k).
Proof.
  destruct (decide (length l ≤ n)) as [Hle|Hgt].
  - replace (length l - n) with 0 by lia. done.
  - rewrite !length_app, length_drop.
    replace (length l - (length l - n) + length k - n) with (length k) by lia.
    replace (length l + length k - n) with ((length l - n) + length k) by lia.
    rewrite <-drop_drop. f_equal.
    rewrite drop_app_le by lia. done.
Qed.

Lemma append_items (n : nat) x d :
  maxlen d = Some n → deque_ok d →
  maxlen (append x d) = Some n
  ∧ deque_ok (append x d)
  ∧ items (append x d) = drop (length (items d ++ [x]) - n) (items d ++ [x]).
Proof.
  unfold deque_ok, append. intros -> Hok; simpl.
  rewrite length_app; simpl. case_bool_decide as Hfull.
  - split_and!; [done | rewrite length_drop, length_app; simpl; lia |].
    f_equal. lia.
  - split_and!; [done | rewrite length_app; simpl; lia |].
    replace (length (items d) + 1 - n) with 0 by lia. done.
Qed.

(** Eviction is first in, first out: appending to a full queue drops its
    oldest item and nothing else. *)
Lemma append_full (n : nat) x d :
  maxlen d = Some n → length (items d) = n →
  items (append x d) = drop 1 (items d ++ [x]).
Proof.
  unfold append. intros -> Hlen; simpl.
  rewrite bool_decide_eq_true_2; [done|]. rewrite length_app; simpl. lia.
Qed.

Lemma emit_all_cons r records h : emit_all (r :: records) h = emit_all records (emit r h).
Proof. done. Qed.

Lemma emit_all_queue (n : nat) records : ∀ h,
  maxlen (queue h) = Some n → deque_ok (queue h) →
  maxlen (queue (emit_all records h)) = Some n
  ∧ deque_ok (queue (emit_all records h))
  ∧ items (queue (emit_all records h))
    = drop (length (items (queue h) ++ records) - n) (items (queue h) ++ records).
Proof.
  induction records as [|r records IH]; intros h Hn Hok.
  - split_and!; [done..|]. unfold emit_all; simpl. rewrite app_nil_r.
    unfold deque_ok in Hok. rewrite Hn in Hok.
    replace (length (items (queue h)) - n) with 0 by lia. done.
  - rewrite emit_all_cons.
    destruct (append_items n r (queue h) Hn Hok) as (Hn' & Hok' & Hit).
    destruct (IH (emit r h) Hn' Hok') as (Hn'' & Hok'' & Hit'').
    split_and!; [done..|]. rewrite Hit''. simpl. rewrite Hit.
    rewrite keep_last_app. by rewrite <-!app_assoc.
Qed.

Lemma run_hooks_calls r hs log :
  foldl (run_hook r) log (dict_values hs) = log ++ hook_calls r hs.
Proof.
  unfold hook_calls, dict_values. revert log.
  induction hs as [|[i [f|v]] hs IH]; intros log; simpl.
  - by rewrite app_nil_r.
  - rewrite IH. by rewrite <-app_assoc.
  - apply IH.
Qed.

Lemma emit_calls r h : calls (emit r h) = calls h ++ hook_calls r (hooks h).
Proof. apply run_hooks_calls. Qed.

Lemma emit_all_hooks records : ∀ h,
  hooks (emit_all records h) = hooks h ∧ hook_id (emit_all records h) = hook_id h.
Proof.
  induction records as [|r records IH]; intros h; [done|].
  rewrite emit_all_cons. by destruct (IH (emit r h)) as [-> ->].
Qed.

Lemma emit_all_calls records : ∀ h,
  calls (emit_all records h)
  = calls h ++ flat_map (λ r, hook_calls r (hooks h)) records.
Proof.
  induction records as [|r records IH]; intros h.
  - simpl. by rewrite app_nil_r.
  - rewrite emit_all_cons, IH, emit_calls. simpl. by rewrite <-app_assoc.
Qed.

(** C7.  On a queue bounded by [capacity], emitting [capacity + 5] records
    leaves exactly [capacity] of them: the first five are gone, together with
    whatever the queue held before, and the rest are kept in order.  Every
    emit, evicting or not, calls each registered function once with the new
    record, in the order of registration. *)
Theorem log_queue_eviction (capacity : nat) records h :
  maxlen (queue h) = Some capacity →
  length (items (queue h)) ≤ capacity →
  length records = capacity + 5 →
  items (queue (emit_all records h)) = drop 5 records
  ∧ length (items (queue (emit_all records h))) = capacity
  ∧ items (queue h) ++ records
    = (items (queue h) ++ take 5 records) ++ items (queue (emit_all records h))
  ∧ (∀ r h', calls (emit r h') = calls h' ++ hook_calls r (hooks h'))
  ∧ calls (emit_all records h)
    = calls h ++ flat_map (λ r, hook_calls r (hooks h)) records.
Proof.
  intros Hn Hlen Hrec.
  assert (deque_ok (queue h)) as Hok by (unfold deque_ok; by rewrite Hn).
  destruct (emit_all_queue capacity records h Hn Hok) as (_ & _ & Hit).
  assert (items (queue (emit_all records h)) = drop 5 records) as E.
  { rewrite Hit, length_app, Hrec.
    replace (length (items (queue h)) + (capacity + 5) - capacity)
      with (length (items (queue h)) + 5) by lia.
    rewrite <-drop_drop, drop_app_length. done. }
  split_and!.
  - exact E.
  - rewrite E, length_drop. lia.
  - rewrite E, <-app_assoc, take_drop. done.
  - intros r h'. apply emit_calls.
  - apply emit_all_calls.
Qed.

End log_props.

Lemma log_queue_eviction_example :
  Log.maxlen (Log.queue (Log.hook (Log.PyFunc "add_record")
                (Log.QueueHandler_init (Log.deque_new 2 : Log.deque nat))).2) = Some 2
  ∧ length [1; 2; 3; 4; 5; 6; 7] = 2 + 5
  ∧ Log.items (Log.queue (Log.emit_all [1; 2; 3; 4; 5; 6; 7]
                 (Log.hook (Log.PyFunc "add_record")
                    (Log.QueueHandler_init (Log.deque_new 2 : Log.deque nat))).2))
    = [6; 7]
  ∧ Log.calls (Log.emit_all [1; 2; 3; 4; 5; 6; 7]
                 (Log.hook (Log.PyFunc "add_record")
                    (Log.QueueHandler_init (Log.deque_new 2 : Log.deque nat))).2)
    = (λ r, ("add_record", r)) <$> [1; 2; 3; 4; 5; 6; 7].
Proof.
  destruct (log_queue_eviction 2 [1; 2; 3; 4; 5; 6; 7]
              (Log.hook (Log.PyFunc "add_record")
                 (Log.QueueHandler_init (Log.deque_new 2 : Log.deque nat))).2
              eq_refl (Nat.le_0_l 2) eq_refl) as (Hitems & _ & _ & _ & Hcalls).
  split_and!; [reflexivity | reflexivity | exact Hitems | exact Hcalls].
Defined.

Section hook_props.
Import Py Log.
Context {LogRecord : Type}.
Implicit Types (h : QueueHandler LogRecord) (r : LogRecord) (f : pyobj)
  (ops : list (op LogRecord)) (hs : dict Z pyobj).
Local Open Scope Z_scope.

Lemma dict_set_fresh {V} (d : dict Z V) k v :
  dict_get k d = None → dict_set k v d = d ++ [(k, v)].
Proof.
  induction d as [|[k0 v0] d IH]; simpl; [done|].
  destruct (decide (k0 = k)); [done|]. intros Hd. by rewrite IH.
Qed.

Lemma hooks_ok_fresh h i : hooks_ok h → hook_id h ≤ i → dict_get i (hooks h) = None.
Proof.
  intros Hok Hi. apply dict_get_None_keys. intros Hin.
  unfold hooks_ok in Hok. rewrite Forall_forall in Hok.
  specialize (Hok i Hin). lia.
Qed.

Lemma hook_hooks h f :
  hooks_ok h → hooks (hook f h).2 = hooks h ++ [(hook_id h, f)].
Proof. intros Hok. simpl. apply dict_set_fresh, hooks_ok_fresh; [done | lia]. Qed.

Lemma hooks_ok_init (q : deque LogRecord) : hooks_ok (QueueHandler_init q).
Proof. apply Forall_nil_2. Qed.

Lemma hooks_ok_hook h f : hooks_ok h → hooks_ok (hook f h).2.
Proof.
  intros Hok. unfold hooks_ok. rewrite hook_hooks by done.
  unfold dict_keys. rewrite fmap_app. apply Forall_app. split.
  - eapply Forall_impl; [exact Hok|]. simpl. intros; lia.
  - apply Forall_singleton. simpl. lia.
Qed.

Lemma hooks_ok_unhook h i : hooks_ok h → hooks_ok (unhook i h).
Proof.
  intros Hok. unfold unhook. destruct (dict_mem i (hooks h)); [|done].
  unfold hooks_ok; simpl. rewrite dict_keys_del.
  apply Forall_forall. intros k [_ Hk]%list_elem_of_filter.
  unfold hooks_ok in Hok. rewrite Forall_forall in Hok. by apply Hok.
Qed.

Lemma hooks_ok_emit h r : hooks_ok h → hooks_ok (emit r h).
Proof. done. Qed.

(** The states a client can reach keep [hooks_ok]. *)
Lemma hooks_ok_run ops : ∀ h, hooks_ok h → hooks_ok (run ops h).2.
Proof.
  induction ops as [|[r|f|i] ops IH]; intros h Hok; simpl.
  - done.
  - by apply IH, hooks_ok_emit.
  - specialize (IH _ (hooks_ok_hook h f Hok)).
    simpl in IH. by destruct (run ops _).
  - by apply IH, hooks_ok_unhook.
Qed.

(** The ids handed out in a run are the successive values of the counter,
    whatever else happens in between. *)
Lemma run_ids ops : ∀ h,
  (run ops h).1 = seqZ (hook_id h) (Z.of_nat (length (run ops h).1)).
Proof.
  induction ops as [|[r|f|i] ops IH]; intros h; simpl.
  - done.
  - apply (IH (emit r h)).
  - specialize (IH (hook f h).2). simpl in IH.
    destruct (run ops _) as [ids h'']; simpl in *.
    rewrite seqZ_cons by lia. f_equal.
    rewrite IH at 1. f_equal; lia.
  - specialize (IH (unhook i h)).
    replace (hook_id (unhook i h)) with (hook_id h) in IH; [done|].
    unfold unhook. by destruct (dict_mem i (hooks h)).
Qed.

(** C10.  [hook] returns the current counter and adds one to it.  The ids
    returned in any run of emits, hooks and unhooks are the successive
    counter values: pairwise distinct, and distinct from every id still in the
    registry.  Registering one function twice gives two different ids and two
    more calls of it per emitted record.  [unhook] of an id that is not in
    the registry returns with the handler unchanged. *)
Theorem hook_ids_never_reused h :
  hooks_ok h →
  (∀ f, (hook f h).1 = hook_id h ∧ hook_id (hook f h).2 = hook_id h + 1)
  ∧ (∀ ops,
       (run ops h).1 = seqZ (hook_id h) (Z.of_nat (length (run ops h).1))
       ∧ NoDup (run ops h).1
       ∧ ∀ i, i ∈ (run ops h).1 → i ∉ dict_keys (hooks h))
  ∧ (∀ name r,
       (hook (PyFunc name) h).1 ≠ (hook (PyFunc name) (hook (PyFunc name) h).2).1
       ∧ calls (emit r (hook (PyFunc name) (hook (PyFunc name) h).2).2)
         = calls h ++ hook_calls r (hooks h) ++ [(name, r); (name, r)])
  ∧ (∀ i, dict_mem i (hooks h) = false → unhook i h = h).
Proof.
  intros Hok. split_and!.
  - done.
  - intros ops. pose proof (run_ids ops h) as Hids. split_and!; [done| |].
    + rewrite Hids. apply NoDup_seqZ.
    + intros i Hi Hin. rewrite Hids in Hi. apply elem_of_seqZ in Hi.
      unfold hooks_ok in Hok. rewrite Forall_forall in Hok.
      specialize (Hok i Hin). lia.
  - intros name r. split; [simpl; lia|].
    rewrite emit_calls.
    rewrite (hook_hooks (hook (PyFunc name) h).2) by by apply hooks_ok_hook.
    rewrite hook_hooks by done.
    unfold hook_calls, dict_values. rewrite !fmap_app, !omap_app; simpl.
    by rewrite <-app_assoc.
  - intros i Hi. unfold unhook. by rewrite Hi.
Qed.

End hook_props.

Lemma hook_ids_never_reused_example :
  Log.hooks_ok (Log.QueueHandler_init (Log.deque_new 1000 : Log.deque nat))
  ∧ (Log.run [Log.OpHook (Log.PyFunc "add_record"); Log.OpUnhook 0;
              Log.OpHook (Log.PyFunc "add_record"); Log.OpEmit 7]
       (Log.QueueHandler_init (Log.deque_new 1000 : Log.deque nat))).1
    = [0; 1]%Z
  ∧ Log.unhook 5 (Log.QueueHandler_init (Log.deque_new 1000 : Log.deque nat))
    = Log.QueueHandler_init (Log.deque_new 1000 : Log.deque nat).
Proof.
  destruct (hook_ids_never_reused
              (Log.QueueHandler_init (Log.deque_new 1000 : Log.deque nat))
              (Forall_nil_2 _)) as (_ & Hrun & _ & Hunhook).
  split_and!; [apply Forall_nil_2 | | exact (Hunhook 5%Z eq_refl)].
  exact (proj1 (Hrun [Log.OpHook (Log.PyFunc "add_record"); Log.OpUnhook 0%Z;
                      Log.OpHook (Log.PyFunc "add_record"); Log.OpEmit 7])).
Defined.

(** * Further properties of the code *)

(** ** Selection commands *)

Section selection_more.
Import Selection.
Local Open Scope Z_scope.
Context {Cell : Type}.
Implicit Types (cells : list Cell) (s : slice) (app : App Cell).

Lemma extend_down_grows cells a b st :
  a + 1 ≠ b →
  extend_cell_selection_down (app_with cells (Slice a b st))
  = app_with cells (Slice (a + 1) b st).
Proof.
  intros Hne. unfold extend_cell_selection_down, with_notebook, app_with; simpl.
  by rewrite bool_decide_eq_false_2.
Qed.

Lemma extend_down_swaps cells a st :
  extend_cell_selection_down (app_with cells (Slice a (a + 1) st))
  = app_with cells (Slice (a + 1) (a - 1) (Some (-1))).
Proof.
  unfold extend_cell_selection_down, with_notebook, app_with; simpl.
  by rewrite bool_decide_eq_true_2.
Qed.

(** Extend-down moves the start up by one per step as long as the start
    does not reach [stop - 1]: either it is already at or past the stop, or
    it stays short of it. *)
Lemma extend_down_iter cells (n : nat) : ∀ a b st,
  b ≤ a ∨ a + Z.of_nat n < b →
  Nat.iter n extend_cell_selection_down (app_with cells (Slice a b st))
  = app_with cells (Slice (a + Z.of_nat n) b st).
Proof.
  induction n as [|n IH]; intros a b st Hab.
  - simpl. apply app_with_bounds; lia.
  - rewrite Nat.iter_succ_r, extend_down_grows by lia.
    rewrite IH by lia. apply app_with_bounds; lia.
Qed.

Lemma extend_down_no_flip cells (n : nat) : ∀ a b st,
  b ≤ a →
  extend_down_flip_count n (app_with cells (Slice a b st)) = 0%nat.
Proof.
  unfold extend_down_flip_count.
  induction n as [|n IH]; intros a b st Hab; [done|].
  cbn [states_before]. rewrite filter_cons_False.
  - rewrite extend_down_grows by lia. apply IH. lia.
  - unfold extend_down_flips, app_with; simpl.
    rewrite bool_decide_eq_false_2 by lia. done.
Qed.

(** Extend-up moves the start down by one per step as long as the start stays
    more than one above the stop. *)
Lemma extend_up_iter_above cells (n : nat) : ∀ a b st,
  b < a - Z.of_nat n →
  Nat.iter n extend_cell_selection_up (app_with cells (Slice a b st))
  = app_with cells (Slice (a - Z.of_nat n) b st).
Proof.
  induction n as [|n IH]; intros a b st Hab.
  - simpl. apply app_with_bounds; lia.
  - rewrite Nat.iter_succ_r, extend_up_grows by lia.
    rewrite IH by lia. apply app_with_bounds; lia.
Qed.

(** X1.  From a single-cell selection [(k, k + 1)], the first extend-down
    swaps the ends to [(k + 1, k - 1)] with step [-1], and every later one
    raises the start by one: [n + 1] runs give [(k + 1 + n, k - 1)], with
    exactly one swap among them. *)
Theorem extend_down_from_single_cell cells (k : Z) st (n : nat) :
  Nat.iter (S n) extend_cell_selection_down (app_with cells (Slice k (k + 1) st))
  = app_with cells (Slice (k + 1 + Z.of_nat n) (k - 1) (Some (-1)))
  ∧ extend_down_flip_count (S n) (app_with cells (Slice k (k + 1) st)) = 1%nat.
Proof.
  split.
  - rewrite Nat.iter_succ_r, extend_down_swaps. apply extend_down_iter. lia.
  - unfold extend_down_flip_count. cbn [states_before].
    rewrite filter_cons_True.
    + cbn [length]. f_equal. rewrite extend_down_swaps.
      apply extend_down_no_flip. lia.
    + unfold extend_down_flips, app_with; simpl. by rewrite bool_decide_eq_true_2.
Qed.

(** X2.  On a forward selection ([start < stop]), any number of extend-ups
    followed by as many extend-downs gives back the selection, step
    included. *)
Theorem extend_up_then_down cells (a b : Z) st (m : nat) :
  a < b →
  Nat.iter m extend_cell_selection_down
    (Nat.iter m extend_cell_selection_up (app_with cells (Slice a b st)))
  = app_with cells (Slice a b st).
Proof.
  intros Hab. rewrite extend_up_iter by lia.
  rewrite extend_down_iter by lia. apply app_with_bounds; lia.
Qed.

(** X3.  The other order does not undo itself.  From a single cell
    [(k, k + 1)], [m + 1] extend-downs followed by [m + 1] extend-ups leave
    the reversed slice [(k, k - 1)] with step [-1], and one more extend-up
    swaps the ends to the forward slice [(k - 1, k + 1)] with step [1]. *)
Theorem extend_down_then_up cells (k : Z) st (m : nat) :
  Nat.iter (S m) extend_cell_selection_up
    (Nat.iter (S m) extend_cell_selection_down (app_with cells (Slice k (k + 1) st)))
  = app_with cells (Slice k (k - 1) (Some (-1)))
  ∧ Nat.iter (S (S m)) extend_cell_selection_up
      (Nat.iter (S m) extend_cell_selection_down (app_with cells (Slice k (k + 1) st)))
    = app_with cells (Slice (k - 1) (k + 1) (Some 1)).
Proof.
  assert (Nat.iter (S m) extend_cell_selection_up
            (Nat.iter (S m) extend_cell_selection_down
               (app_with cells (Slice k (k + 1) st)))
          = app_with cells (Slice k (k - 1) (Some (-1)))) as E.
  { destruct (extend_down_from_single_cell cells k st m) as [-> _].
    rewrite extend_up_iter_above by lia. apply app_with_bounds; lia. }
  split; [exact E|].
  change (Nat.iter (S (S m)) extend_cell_selection_up ?x)
    with (extend_cell_selection_up (Nat.iter (S m) extend_cell_selection_up x)).
  rewrite E.
  rewrite (app_with_bounds cells k (k - 1) (k - 1 + 1) (k - 1)) by lia.
  rewrite extend_up_swaps. apply app_with_bounds; lia.
Qed.

(** X4.  Page-down is five move-downs and page-up is five move-ups, in
    every application state. *)
Theorem page_moves_are_five_steps app :
  Nat.iter 5 next_child app = select_5th_next_cell app
  ∧ Nat.iter 5 select_previous_cell app = select_5th_previous_cell app.
Proof.
  destruct app as [[[[cells s]]|]]; [|done].
  change (mkApp (Some (mkNotebook (mkPage cells s)))) with (app_with cells s).
  split.
  - unfold select_5th_next_cell, next_child, with_notebook; simpl.
    apply app_with_bounds; lia.
  - unfold select_5th_previous_cell, select_previous_cell, with_notebook; simpl.
    apply app_with_bounds; lia.
Qed.

(** X5.  No selection command touches the cells of the notebook, and
    without an active notebook every one of them leaves the application as it
    is. *)
Theorem selection_commands_frame :
  Forall (λ cmd : App Cell → App Cell,
            ∀ app, cells_of (cmd app) = cells_of app
                   ∧ (notebook app = None → cmd app = app))
         selection_commands.
Proof.
  unfold selection_commands.
  repeat apply Forall_cons_2; [..|apply Forall_nil_2];
    intros [[[[cells s]]|]]; (split; [|done]);
    unfold cells_of, with_notebook; simpl; try done.
  - by case_bool_decide.
  - by case_bool_decide.
Qed.

End selection_more.

Lemma extend_up_then_down_example :
  (2 < 5)%Z
  ∧ Nat.iter 3 Selection.extend_cell_selection_down
      (Nat.iter 3 Selection.extend_cell_selection_up
         (Selection.app_with (replicate 6 ()) (Selection.Slice 2 5 None)))
    = Selection.app_with (replicate 6 ()) (Selection.Slice 2 5 None).
Proof.
  split; [lia|].
  apply (extend_up_then_down (replicate 6 ()) 2 5 None 3). lia.
Defined.

(** ** Kernel tab metadata *)

Section metadata_more.
Import Py Tab.
Implicit Types (t : KernelTab) (info : dict string pyval) (value : pyval).

Lemma metadata_set_metadata m t : metadata (set_metadata m t) = m.
Proof. done. Qed.

(** X6.  The [kernel_name] setter returns exactly when the getter does
    (both need ["kernelspec"] to be missing or a dictionary).  After a setter
    that returns, the getter gives the value that was set; the display name
    is the stored ["display_name"] if there is one and the new name
    otherwise; language and file extension read as before. *)
Theorem kernel_name_round_trip value t :
  (raised (kernel_name_setter value t) = None ↔ ∃ v, kernel_name t = Ok v)
  ∧ ∀ t', kernel_name_setter value t = Returned t' →
      kernel_name t' = Ok value
      ∧ kernel_display_name t'
        = Ok (default value
                (match dict_get "kernelspec" (metadata t) with
                 | Some (PyDict ks) => dict_get "display_name" ks
                 | _ => None
                 end))
      ∧ language t' = language t
      ∧ kernel_lang_file_ext t' = kernel_lang_file_ext t.
Proof.
  unfold kernel_name_setter, dict_setdefault.
  destruct (dict_get "kernelspec" (metadata t)) as [v|] eqn:E.
  - destruct v as [| | | | |ks]; simpl;
      try (split; [split; [done | intros [v Hv]; unfold kernel_name in Hv;
                                  rewrite E in Hv; done]
                  | intros t' [=]]).
    split.
    + split; [|done]. intros _. unfold kernel_name. rewrite E. by eexists.
    + intros t' [= <-].
      unfold kernel_display_name, kernel_name, language, kernel_lang_file_ext.
      rewrite !metadata_set_metadata, E, dict_get_set_eq. simpl.
      rewrite dict_get_set_eq, !dict_get_set_ne by done. done.
  - simpl. split.
    + split; [|done]. intros _. unfold kernel_name. rewrite E. by eexists.
    + intros t' [= <-].
      unfold kernel_display_name, kernel_name, language, kernel_lang_file_ext.
      rewrite !metadata_set_metadata, E.
      repeat first [rewrite dict_get_set_eq | rewrite dict_get_set_ne by done].
      simpl. done.
Qed.

(** X7.  After [set_kernel_info(info)] the file extension is read from
    [info] alone: the default [".py"] when [info] has no ["language_info"] or
    one without a ["file_extension"], the stored extension when there is one,
    and an [AttributeError] when ["language_info"] is no dictionary.  Kernel
    name, display name and language read as before, and nothing but the
    metadata changes. *)
Theorem set_kernel_info_file_ext info t :
  kernel_lang_file_ext (set_kernel_info info t)
  = match dict_get "language_info" info with
    | None => Ok (PyStr ".py")
    | Some (PyDict li) => Ok (default (PyStr ".py") (dict_get "file_extension" li))
    | Some _ => Err AttributeError
    end
  ∧ kernel_name (set_kernel_info info t) = kernel_name t
  ∧ kernel_display_name (set_kernel_info info t) = kernel_display_name t
  ∧ language (set_kernel_info info t) = language t
  ∧ comms (set_kernel_info info t) = comms t
  ∧ trace (set_kernel_info info t) = trace t.
Proof.
  unfold kernel_display_name, kernel_name, language, kernel_lang_file_ext, set_kernel_info.
  rewrite !metadata_set_metadata, dict_get_set_eq, !dict_get_set_ne by done.
  split_and!; try done.
  by destruct (dict_get "language_info" info) as [[]|].
Qed.

End metadata_more.

(** ** The comm registry *)

Section comm_more.
Import Py Tab.
Context `{PyRepr}.
Implicit Types (t : KernelTab) (content rest : dict string pyval) (buffers : list bytes)
  (id : string).

Lemma comm_msg_comms content buffers t : comms (comm_msg content buffers t) = comms t.
Proof. unfold comm_msg. by destruct (comms t !! _). Qed.

(** X8.  Opening a comm id a second time replaces the comm: the registry
    is the one a single open of the second message gives, its size is that
    after the first open, and a message for the id is handed once, to the
    second comm, with the message's data (an empty dictionary when it has
    none). *)
Theorem comm_reopen_replaces id rest1 b1 rest2 b2 rest3 b3 t :
  comms (comm_open (envelope id rest2) b2 (comm_open (envelope id rest1) b1 t))
  = comms (comm_open (envelope id rest2) b2 t)
  ∧ size (comms (comm_open (envelope id rest2) b2 (comm_open (envelope id rest1) b1 t)))
    = size (comms (comm_open (envelope id rest1) b1 t))
  ∧ new_calls
      (comm_open (envelope id rest2) b2 (comm_open (envelope id rest1) b1 t))
      (comm_msg (envelope id rest3) b3
         (comm_open (envelope id rest2) b2 (comm_open (envelope id rest1) b1 t)))
    = [CommProcessData (open_comm (envelope id rest2) b2)
         (default (PyDict []) (dict_get "data" rest3)) b3].
Proof.
  rewrite !comm_open_envelope. split_and!.
  - simpl. apply insert_insert_eq.
  - simpl. rewrite insert_insert_eq. by rewrite !map_size_insert.
  - unfold comm_msg, envelope, content_comm_id; simpl.
    rewrite lookup_insert_eq. apply new_calls_call.
Qed.

(** X9.  The three comm handlers leave every comm registered under another
    key than [str] of the message's comm id in place; [comm_msg] does not
    change the registry at all and makes at most one call; [comm_open] and
    [comm_close] make no call. *)
Theorem comm_handlers_frame content buffers t (k : string) :
  k ≠ py_str (content_comm_id content) →
  comms (comm_open content buffers t) !! k = comms t !! k
  ∧ comms (final (comm_close content buffers t)) !! k = comms t !! k
  ∧ comms (comm_msg content buffers t) = comms t
  ∧ length (new_calls t (comm_msg content buffers t)) ≤ 1
  ∧ trace (comm_open content buffers t) = trace t
  ∧ trace (final (comm_close content buffers t)) = trace t.
Proof.
  intros Hk. split_and!.
  - unfold comm_open; simpl. by rewrite lookup_insert_ne.
  - unfold comm_close, comms_contains.
    destruct (content_comm_id content) as [| | |s| |] eqn:E; simpl; try done.
    case_bool_decide; simpl; [|done]. by rewrite lookup_delete_ne.
  - apply comm_msg_comms.
  - unfold comm_msg. destruct (comms t !! _).
    + by rewrite new_calls_call.
    + rewrite new_calls_same. simpl. lia.
  - done.
  - unfold comm_close, comms_contains.
    destruct (content_comm_id content) as [| | |s| |]; simpl; try done.
    by case_bool_decide.
Qed.

(** X10.  [comm_close] raises exactly when the comm id is a list or a
    dictionary, which cannot be looked up in the registry, and then leaves the
    tab as it is.  It changes the tab only when the comm id is a string that
    is registered, and then removes just that key. *)
Theorem comm_close_cases content buffers t :
  (raised (comm_close content buffers t) = Some TypeError
   ↔ (∃ l, content_comm_id content = PyList l) ∨ (∃ d, content_comm_id content = PyDict d))
  ∧ (raised (comm_close content buffers t) = None
     ∨ raised (comm_close content buffers t) = Some TypeError)
  ∧ (final (comm_close content buffers t) ≠ t →
     ∃ s, content_comm_id content = PyStr s ∧ is_Some (comms t !! s))
  ∧ (∀ s, content_comm_id content = PyStr s →
       comm_close content buffers t = Returned (set_comms (delete s (comms t)) t)).
Proof.
  unfold comm_close, comms_contains.
  destruct (content_comm_id content) as [| | |s|l|d]; simpl.
  1-3: split_and!; [split; [done | by intros [[? [=]]|[? [=]]]] | by left | done | done].
  - case_bool_decide as Hs; simpl.
    + split_and!; [split; [done | by intros [[? [=]]|[? [=]]]] | by left | | by intros ? [= <-]].
      intros _. by exists s.
    + split_and!; [split; [done | by intros [[? [=]]|[? [=]]]] | by left | done |].
      intros ? [= <-]. rewrite delete_id, set_comms_same; [done|].
      by apply eq_None_not_Some.
  - split_and!; [split; [intros _; left; by eexists | done] | by right | done | done].
  - split_and!; [split; [intros _; right; by eexists | done] | by right | done | done].
Qed.

End comm_more.

Lemma comm_handlers_frame_example :
  "w2" ≠ @Py.py_str Py.repr_unused (Tab.content_comm_id (Tab.envelope "w1" []))
  ∧ Tab.comms (Py.final (Tab.comm_close (Tab.envelope "w1" []) []
        (@Tab.comm_open Py.repr_unused (Tab.envelope "w2" []) []
           (Tab.mkTab ∅ [] ∅ "python3" [] [])))) !! "w2"
    = Tab.comms (@Tab.comm_open Py.repr_unused (Tab.envelope "w2" []) []
                   (Tab.mkTab ∅ [] ∅ "python3" [] [])) !! "w2".
Proof.
  split; [done|].
  apply (@comm_handlers_frame Py.repr_unused (Tab.envelope "w1" []) []
           (@Tab.comm_open Py.repr_unused (Tab.envelope "w2" []) []
              (Tab.mkTab ∅ [] ∅ "python3" [] [])) "w2").
  done.
Defined.

(** ** The tab base class *)

Section tab_base_more.
Import TabBase.
Implicit Types (app : App) (self : nat) (cb : cb_arg).

(** X11.  [close] takes the tab's entry out of the application's status
    registry when it has one and leaves all other entries; a tab that was
    not registered before its [__init__] leaves the registry as it found it.
    Closing again changes the registry no further, and every close runs a
    callback that is a function, also for a tab that is already closed. *)
Theorem tab_close_removes_status self cb cb' app :
  container_statuses (close self cb app) = delete self (container_statuses app)
  ∧ (container_statuses app !! self = None →
     container_statuses (close self cb (Tab_init self app)) = container_statuses app)
  ∧ container_statuses (close self cb' (close self cb app))
    = container_statuses (close self cb app)
  ∧ called (close self cb' (close self cb app))
    = called app
      ++ match cb with CbFunc f => [f] | _ => [] end
      ++ match cb' with CbFunc f => [f] | _ => [] end
  ∧ focused (close self cb app) = focused app.
Proof.
  assert (∀ a c, container_statuses (close self c a) = delete self (container_statuses a))
    as Hdel.
  { intros a c. unfold close; simpl. case_bool_decide as Hs; [done|].
    symmetry. apply delete_id. by apply eq_None_not_Some. }
  split_and!.
  - apply Hdel.
  - intros Hnone. rewrite Hdel. simpl. by rewrite delete_insert_id.
  - rewrite !Hdel. apply delete_delete_eq.
  - destruct cb, cb'; simpl; by rewrite ?app_nil_r, <-?app_assoc.
  - done.
Qed.

End tab_base_more.

(** ** Log hooks and the queue under arbitrary runs *)

Section log_more.
Import Py Log.
Context {LogRecord : Type}.
Implicit Types (h : QueueHandler LogRecord) (r : LogRecord) (f : pyobj)
  (ops : list (op LogRecord)) (hs : dict Z pyobj).
Local Open Scope Z_scope.

Lemma dict_del_filter hs (i : Z) : dict_del i hs = filter (λ kv, kv.1 ≠ i) hs.
Proof.
  unfold dict in *.
  induction hs as [|[k v] hs IH]; [done|]. cbn [dict_del].
  destruct (decide (k = i)) as [->|Hne].
  - rewrite filter_cons_False; [done | by intros []].
  - rewrite filter_cons_True by done. by rewrite IH.
Qed.

Lemma dict_get_del hs (i j : Z) :
  dict_get j (dict_del i hs) = if decide (j = i) then None else dict_get j hs.
Proof.
  induction hs as [|[k v] hs IH]; simpl; [by destruct (decide (j = i))|].
  destruct (decide (k = i)) as [->|Hne]; simpl.
  - rewrite IH. destruct (decide (j = i)) as [->|]; [done|].
    by rewrite decide_False.
  - rewrite IH. destruct (decide (k = j)) as [->|]; [|done].
    by rewrite decide_False.
Qed.

Lemma dict_del_absent_Z hs (i : Z) : dict_get i hs = None → dict_del i hs = hs.
Proof.
  induction hs as [|[k v] hs IH]; simpl; [done|].
  destruct (decide (k = i)); [done|]. intros Hd. by rewrite IH.
Qed.


Lemma unhook_hooks i h : hooks (unhook i h) = dict_del i (hooks h).
Proof.
  unfold unhook, dict_mem. destruct (dict_get i (hooks h)) eqn:E; [done|].
  symmetry. by apply dict_del_absent_Z.
Qed.

(** X12.  [unhook] takes out exactly the entry of the given id: a lookup
    of that id finds nothing afterwards, every other id keeps its function, and
    the remaining hooks keep their order, so an emit calls the same functions
    as before but the removed one.  Counter, queue and past calls stay. *)
Theorem unhook_removes_one i h :
  hooks (unhook i h) = filter (λ kv, kv.1 ≠ i) (hooks h)
  ∧ (∀ j, dict_get j (hooks (unhook i h))
          = if decide (j = i) then None else dict_get j (hooks h))
  ∧ (∀ r, hook_calls r (hooks (unhook i h))
          = hook_calls r (filter (λ kv, kv.1 ≠ i) (hooks h)))
  ∧ unhook i (unhook i h) = unhook i h
  ∧ hook_id (unhook i h) = hook_id h
  ∧ queue (unhook i h) = queue h
  ∧ calls (unhook i h) = calls h.
Proof.
  pose proof (unhook_hooks i h) as Hh.
  split_and!.
  - by rewrite Hh, dict_del_filter.
  - intros j. rewrite Hh. apply dict_get_del.
  - intros r. by rewrite Hh, dict_del_filter.
  - unfold unhook at 1. unfold dict_mem.
    rewrite Hh, dict_get_del, decide_True by done. done.
  - unfold unhook. by destruct (dict_mem i (hooks h)).
  - unfold unhook. by destruct (dict_mem i (hooks h)).
  - unfold unhook. by destruct (dict_mem i (hooks h)).
Qed.



End log_more.



(** ** The log view *)

Section log_view_more.
Import Py LogView.
Local Open Scope Z_scope.
Context {Time : Type} (formatTime : Time → string).
Implicit Types (record : LogRecord Time) (v : LogView).

(** The colour index that [render] computes, by range of the level. *)
Lemma colour_index (l : Z) :
  Z.max 0 (Z.of_nat (bisect_right levels l) - 1)
  = if decide (l < 10) then 0
    else if decide (l < 20) then 1
    else if decide (l < 30) then 2
    else if decide (l < 40) then 3
    else if decide (l < 50) then 4
    else if decide (l < 60) then 5
    else 6.
Proof.
  unfold bisect_right, levels. rewrite !filter_cons, filter_nil.
  repeat case_decide; simpl; lia.
Qed.

Lemma render_cases record :
  render formatTime record
  = match list_getitem level_colors
            (if decide (levelno record < 10) then 0
             else if decide (levelno record < 20) then 1
             else if decide (levelno record < 30) then 2
             else if decide (levelno record < 40) then 3
             else if decide (levelno record < 50) then 4
             else if decide (levelno record < 60) then 5
             else 6) with
    | Ok colour =>
        Ok [("#00875f", formatTime (created record) +:+ " ");
            (colour, rjust 7 (levelname record) +:+ " ");
            ("ansidefault", getMessage record +:+ " ");
            ("fg:#888888 italic",
             name record +:+ "." +:+ funcName record +:+ ":"
             +:+ pretty (lineno record) +:+ " ");
            ("", String (Ascii.ascii_of_nat 10) EmptyString)]
    | Err e => Err e
    end.
Proof. unfold render. by rewrite colour_index. Qed.

(** X15.  [render] raises [IndexError] exactly for records of level 60 and
    above: the level table has seven thresholds and the colour table six
    entries.  Below 60 it gives five fragments, the second in the colour of
    the level's range: below 10 (negative levels included) the first colour,
    then one colour per ten levels. *)
Theorem render_level_colour record :
  (60 ≤ levelno record ↔ render formatTime record = Err IndexError)
  ∧ (levelno record < 60 →
     ∃ colour,
       level_colors !! Z.to_nat (Z.max 0 (levelno record) / 10) = Some colour
       ∧ render formatTime record
         = Ok [("#00875f", formatTime (created record) +:+ " ");
               (colour, rjust 7 (levelname record) +:+ " ");
               ("ansidefault", getMessage record +:+ " ");
               ("fg:#888888 italic",
                name record +:+ "." +:+ funcName record +:+ ":"
                +:+ pretty (lineno record) +:+ " ");
               ("", String (Ascii.ascii_of_nat 10) EmptyString)]).
Proof.
  rewrite render_cases.
  pose proof (Z.div_mod (Z.max 0 (levelno record)) 10 ltac:(lia)) as Hdm.
  pose proof (Z.mod_pos_bound (Z.max 0 (levelno record)) 10 ltac:(lia)) as Hmod.
  repeat case_decide; simpl; (split; [split; [intros; try done; lia | intros; try done; lia]|]);
    intros Hlt; try lia.
  all: eexists; split; [|reflexivity].
  - replace (Z.max 0 (levelno record) / 10) with 0 by lia. done.
  - replace (Z.max 0 (levelno record) / 10) with 1 by lia. done.
  - replace (Z.max 0 (levelno record) / 10) with 2 by lia. done.
  - replace (Z.max 0 (levelno record) / 10) with 3 by lia. done.
  - replace (Z.max 0 (levelno record) / 10) with 4 by lia. done.
  - replace (Z.max 0 (levelno record) / 10) with 5 by lia. done.
Qed.




End log_view_more.

(** ** The preview notebook *)

Section preview_more.
Import Py Preview.
Context {CellJson : Type}.
Implicit Types (cells : list CellJson) (nb : PreviewNotebook CellJson).

Lemma after_render_advances cells (n : nat) :
  n < length cells →
  Nat.iter n after_render (PreviewNotebook_init cells true)
  = mkPreview (Z.of_nat n) cells true 0.
Proof.
  induction n as [|n IH]; intros Hn; [done|].
  rewrite Nat.iter_succ. rewrite IH by lia.
  unfold after_render; simpl. rewrite bool_decide_eq_true_2 by lia.
  f_equal. lia.
Qed.

Lemma list_getitem_nat {A} (l : list A) (n : nat) (x : A) :
  l !! n = Some x → LogView.list_getitem l (Z.of_nat n) = Ok x.
Proof.
  intros Hx. unfold LogView.list_getitem.
  rewrite (bool_decide_eq_false_2 (Z.of_nat n < 0)%Z) by lia.
  rewrite bool_decide_eq_true_2 by lia.
  by rewrite Nat2Z.id, Hx.
Qed.

(** X17.  A current preview tab walks through its cells one render at a
    time: after [n] renders, for [n] below the number of cells, it is on cell
    [n], that cell exists, and the tab has not been closed.  The render after
    the last cell closes the tab once and leaves the index on the last cell;
    a notebook without cells is closed by the first render, and its current
    cell cannot be fetched.  A tab that is not current is left alone. *)
Theorem preview_walks_cells cells :
  (∀ (n : nat) c, cells !! n = Some c →
     Nat.iter n after_render (PreviewNotebook_init cells true)
     = mkPreview (Z.of_nat n) cells true 0
     ∧ cell (Nat.iter n after_render (PreviewNotebook_init cells true))
       = Ok (Z.of_nat n, c))
  ∧ Nat.iter (Nat.max 1 (length cells)) after_render (PreviewNotebook_init cells true)
    = mkPreview (Z.of_nat (length cells - 1)) cells true 1
  ∧ (cells = [] → cell (PreviewNotebook_init cells true) = Err IndexError)
  ∧ (∀ n, Nat.iter n after_render (PreviewNotebook_init cells false)
          = PreviewNotebook_init cells false).
Proof.
  split_and!.
  - intros n c Hc. pose proof (lookup_lt_Some _ _ _ Hc) as Hn.
    rewrite after_render_advances by done. split; [done|].
    unfold cell, get_cell; simpl. by rewrite (list_getitem_nat _ _ c).
  - destruct cells as [|c0 cells']; [done|].
    replace (Nat.max 1 (length (c0 :: cells'))) with (S (length cells'))
      by (simpl; lia).
    rewrite Nat.iter_succ. rewrite after_render_advances by (simpl; lia).
    unfold after_render; simpl. rewrite bool_decide_eq_false_2 by lia.
    f_equal. lia.
  - by intros ->.
  - intros n. induction n as [|n IH]; [done|]. rewrite Nat.iter_succ. by rewrite IH.
Qed.

End preview_more.

(** ** Dialog lookups of [change_kernel] *)

Section change_kernel_more.
Import Py Tab.
Implicit Types (t : KernelTab) (msg : option string) (startup : bool).

(** X18.  [change_kernel] makes at most one call on a collaborator, and none
    at all when there are no kernel specs: on a startup check it then looks
    the notice dialog up only when the registry lacks it, which raises
    [KeyError].  With specs to choose from and no ["change-kernel"] dialog
    registered it raises [KeyError] as well.  A call that raises leaves the
    tab as it was. *)
Theorem change_kernel_dialog_lookups msg startup t :
  length (new_calls t (final (change_kernel msg startup t))) ≤ 1
  ∧ (kernel_specs t = [] → new_calls t (final (change_kernel msg startup t)) = [])
  ∧ (kernel_specs t = [] → startup = true → app_dialogs t !! "no-kernels" = None →
     change_kernel msg startup t = Raised (KeyError "no-kernels") t)
  ∧ (kernel_specs t ≠ [] → startup = false ∨ length (kernel_specs t) ≠ 1 →
     app_dialogs t !! "change-kernel" = None →
     change_kernel msg startup t = Raised (KeyError "change-kernel") t)
  ∧ (∀ e, raised (change_kernel msg startup t) = Some e →
       final (change_kernel msg startup t) = t).
Proof.
  assert (∀ e, length (new_calls t (call e t)) ≤ 1) as Hcall
    by (intros e; by rewrite new_calls_call).
  assert (length (new_calls t t) ≤ 1) as Hsame
    by (rewrite new_calls_same; simpl; lia).
  unfold change_kernel, dialogs_getitem.
  destruct (kernel_specs t) as [|[name spec] specs] eqn:Hs.
  - destruct startup; simpl.
    + destruct (app_dialogs t !! "no-kernels") as [d|] eqn:Hd.
      * rewrite bool_decide_eq_true_2 by by eexists. simpl.
        split_and!; [done | intros _; apply new_calls_same | done | done | done].
      * rewrite bool_decide_eq_false_2 by by intros [? [=]]. simpl.
        split_and!; [done | intros _; apply new_calls_same | done | done | done].
    + split_and!; [done | intros _; apply new_calls_same | done | done | done].
  - destruct startup; simpl.
    + case_bool_decide as Hlen; simpl.
      * split_and!; [apply Hcall | done | done | | done].
        intros _ [[=]|Hne] _. simpl in Hne, Hlen. lia.
      * destruct (app_dialogs t !! "change-kernel") as [d|] eqn:Hd.
        -- split_and!; [apply Hcall | done | done | done | done].
        -- split_and!; [done | done | done | done | done].
    + destruct (app_dialogs t !! "change-kernel") as [d|] eqn:Hd.
      * split_and!; [apply Hcall | done | done | done | done].
      * split_and!; [done | done | done | done | done].
Qed.

End change_kernel_more.
